(** * ProbeStation: a shallow embedding of the I-V sweep orchestrator
    and of the Keithley driver helpers it relies on.

    Python exceptions become the [Raise] outcome of a small state and
    error monad whose state holds the [ProbeStation] attributes and the
    trace of every instrument interaction, in order.  The transport and
    the qcodes driver layer (external to the repository) are an oracle
    [dev] that sees the history and the requested interaction, and either
    answers a string or fails. *)

From Stdlib Require Import String Ascii List ZArith QArith Bool Lia.
Import ListNotations.
Open Scope string_scope.

(** ** Python values, commands and instrument events *)

Inductive exn : Type :=
| ValueError (msg : string)
| RuntimeError (msg : string)
| IndexError
| KeyError
| AttributeError
| CommunicationError.

Inductive inst : Type := Source | Voltmeter.

(** Values passed to a driver parameter (numbers are finite floats). *)
Inductive pyval : Type :=
| PNone
| PNum (q : Q)
| PBool (b : bool)
| PStr (s : string).

(** An argument substituted into a format template: a literal string, or
    a number rendered by Python's formatting. *)
Inductive arg : Type :=
| AStr (s : string)
| ANum (q : Q).

(** A command string: a literal, or a format template with its arguments. *)
Inductive cmd : Type :=
| Lit (s : string)
| Fmt (template : string) (args : list arg).

Inductive event : Type :=
| EWrite (i : inst) (c : cmd)                 (* instr.write(c) *)
| EAsk (i : inst) (c : string)                (* instr.ask(c) *)
| EParam (i : inst) (name : string) (v : pyval)  (* instr.name(v), qcodes driver parameter *)
| ESleep (seconds : Q).                       (* time.sleep(seconds) *)

(** The attributes of a [ProbeStation] object. [has_voltmeter] is
    [self._voltmeter is not None]; the source-meter is always present. *)
Record station : Type := mkStation {
  has_voltmeter : bool;
  mode : string;
  delay : Q
}.

Record world : Type := mkWorld {
  ps : station;
  trace : list event
}.

Inductive outcome (A : Type) : Type :=
| Ok (a : A)
| Raise (e : exn).
Arguments Ok {A} a.
Arguments Raise {A} e.

(** ** The monad *)

Definition M (A : Type) : Type := world -> outcome A * world.

Definition ret {A} (a : A) : M A := fun w => (Ok a, w).
Definition raise {A} (e : exn) : M A := fun w => (Raise e, w).
Definition bind {A B} (m : M A) (k : A -> M B) : M B :=
  fun w => match m w with
           | (Ok a, w') => k a w'
           | (Raise e, w') => (Raise e, w')
           end.

Notation "'let*' x ':=' c 'in' k" := (bind c (fun x => k))
  (at level 200, x name, c at level 100, k at level 200).
Notation "c ;; k" := (bind c (fun _ => k)) (at level 100, right associativity).

Definition get_ps : M station := fun w => (Ok (ps w), w).
Definition put_ps (s : station) : M unit :=
  fun w => (Ok tt, mkWorld s (trace w)).

Definition run {A} (m : M A) (w : world) : outcome A * world := m w.

(** ** Python helpers *)

(** [s.split(',')]: never empty. *)
Fixpoint py_split_comma (s : string) : list string :=
  match s with
  | EmptyString => [EmptyString]
  | String c s' =>
      let rest := py_split_comma s' in
      if Ascii.eqb c "," then EmptyString :: rest
      else match rest with
           | h :: t => String c h :: t
           | [] => [String c EmptyString]
           end
  end.

(** [lst[n]], raising [IndexError] out of range. *)
Definition py_index {A} (l : list A) (n : nat) : M A :=
  match nth_error l n with
  | Some x => ret x
  | None => raise IndexError
  end.

Definition py_in (s : string) (l : list string) : bool :=
  existsb (String.eqb s) l.

Section Station.

(** The transport with the driver layer behind it: given the interactions
    so far and the one requested, an answer, or [None] for a failure. *)
Variable dev : list event -> event -> option string.

(** [float(s)]: the decimal reading of a response string, or [None] when
    Python's [float] raises [ValueError]. *)
Variable float_of : string -> option Q.

Definition emit (e : event) : M string :=
  fun w =>
    let w' := mkWorld (ps w) (trace w ++ [e]) in
    match dev (trace w) e with
    | Some r => (Ok r, w')
    | None => (Raise CommunicationError, w')
    end.

Definition write (i : inst) (c : string) : M unit := emit (EWrite i (Lit c)) ;; ret tt.
Definition ask (i : inst) (c : string) : M string := emit (EAsk i c).
Definition param (i : inst) (name : string) (v : pyval) : M unit :=
  emit (EParam i name v) ;; ret tt.
Definition sleep (d : Q) : M unit :=
  fun w => (Ok tt, mkWorld (ps w) (trace w ++ [ESleep d])).

Definition py_float (s : string) : M Q :=
  match float_of s with
  | Some q => ret q
  | None => raise (ValueError "could not convert string to float")
  end.

(** ** ProbeStation (src/instruments/probe_station.py) *)

(** [nplc(value)] *)
Definition nplc (value : Q) : M unit :=
  param Source "nplcv" (PNum value) ;;
  let* s := get_ps in
  if has_voltmeter s then param Voltmeter "nplc" (PNum value) else ret tt.

(** [__init__(source, voltmeter)]; [vm] is [voltmeter is not None]. *)
Definition create (vm : bool) : M unit :=
  put_ps (mkStation vm (if vm then "4wire" else "2wire") (1 # 100)) ;;
  nplc 1 ;;
  param Source "terminals" (PStr "rear") ;;
  write Source ":SENSe:RESistance:MODE MAN" ;;
  param Source "mode" (PStr "VOLT") ;;
  param Source "rangev" (PNum (21 # 100)) ;;
  param Source "volt" (PNum (3 # 100)) ;;
  param Source "output" (PBool true).

(** [set_mode(mode)] *)
Definition set_mode (m : string) : M unit :=
  if negb (py_in m ["2wire"; "4wire"]) then
    raise (ValueError "Mode must be '2wire' or '4wire'")
  else
    let* s := get_ps in
    if String.eqb m "4wire" && negb (has_voltmeter s) then
      raise (RuntimeError "Cannot enable 4-wire mode without a voltmeter instrument")
    else put_ps (mkStation (has_voltmeter s) m (delay s)).

(** [_measure_cv_4_wire()]; with no voltmeter, [None.write] raises
    [AttributeError]. *)
Definition measure_cv_4_wire : M (Q * Q * Q) :=
  write Source "INIT" ;;
  let* s := get_ps in
  sleep (delay s) ;;
  if negb (has_voltmeter s) then raise AttributeError else
  write Voltmeter "INIT" ;;
  let* r := ask Voltmeter "FETC?" in
  let* voltage_voltmeter := py_float r in
  let* r2 := ask Source "FETC?" in
  let resp := py_split_comma r2 in
  let* p0 := py_index resp 0 in
  let* voltage_source := py_float p0 in
  let* p1 := py_index resp 1 in
  let* current := py_float p1 in
  ret (voltage_voltmeter, current, voltage_source).

(** [_measure_cv_2_wire()] *)
Definition measure_cv_2_wire : M (Q * Q) :=
  write Source "INIT" ;;
  let* r := ask Source "FETC?" in
  let resp := py_split_comma r in
  let* p0 := py_index resp 0 in
  let* voltage := py_float p0 in
  let* p1 := py_index resp 1 in
  let* current := py_float p1 in
  ret (voltage, current).

(** One iteration of the [for v_set in voltages] loop of [measure_cvc],
    acting on the three accumulating lists [meas_v], [meas_i] and
    [meas_v_source]. *)
Definition sweep_body (v_set : Q) (acc : list Q * list Q * list Q)
  : M (list Q * list Q * list Q) :=
  let '(meas_v, meas_i, meas_v_source) := acc in
  param Source "volt" (PNum v_set) ;;
  let* s := get_ps in
  if String.eqb (mode s) "4wire" then
    let* t := measure_cv_4_wire in
    let '(v_voltm, i, v_src) := t in
    ret ((meas_v ++ [v_voltm])%list, (meas_i ++ [i])%list, (meas_v_source ++ [v_src])%list)
  else
    let* t := measure_cv_2_wire in
    let '(v, i) := t in
    ret ((meas_v ++ [v])%list, (meas_i ++ [i])%list, meas_v_source).

(** The loop itself. *)
Fixpoint sweep (vs : list Q) (acc : list Q * list Q * list Q)
  : M (list Q * list Q * list Q) :=
  match vs with
  | [] => ret acc
  | v_set :: vs' =>
      let* acc' := sweep_body v_set acc in
      sweep vs' acc'
  end.

(** [measure_cvc(voltages)] *)
Definition measure_cvc (vs : list Q) : M (list Q * list Q * option (list Q)) :=
  let* r := sweep vs ([], [], []) in
  let '(meas_v, meas_i, meas_v_source) := r in
  let* s := get_ps in
  if String.eqb (mode s) "4wire" then ret (meas_v, meas_i, Some meas_v_source)
  else ret (meas_v, meas_i, None).

(** ** Beeper (src/instrument_drivers/Keithley/Keithley2400.py) *)

(** [beep(freq=None, duration=None)]; an omitted argument is [None]. *)
Definition beep (freq duration : option Q) : M unit :=
  match freq, duration with
  | Some f, Some d =>
      if negb (Qle_bool 65 f && Qle_bool f 2000000) then
        raise (ValueError "Frequency must be between 65 Hz and 2 MHz")
      else if negb (Qle_bool 0 d && Qle_bool d (79 # 10)) then
        raise (ValueError "Duration must be between 0 and 7.9 seconds")
      else
        emit (EWrite Source (Fmt ":SYSTem:BEEPer {freq},{duration}" [ANum f; ANum d])) ;;
        ret tt
  | _, _ => raise (ValueError "Both 'freq' and 'duration' must be provided")
  end.

(** [success()] *)
Definition success : M unit := beep (Some 800) (Some 1).

(** ** Declared driver parameters (src/instrument_drivers/Keithley/Keithley2182A.py)

    A settable qcodes [Parameter] as declared: its [set_cmd] template, the
    validators passed as [vals] (none when [vals] is omitted), and the
    translation of a value to the raw argument ([val_mapping] or
    [set_parser]; [None] when a mapping has no entry). *)
Inductive validator : Type :=
| Numbers (lo hi : Q)
| EnumV (allowed : list pyval).

(** Python's [==] on these values: a bool compares as the number 0 or 1. *)
Definition pyval_eqb (a b : pyval) : bool :=
  match a, b with
  | PNone, PNone => true
  | PNum x, PNum y => Qeq_bool x y
  | PBool x, PBool y => Bool.eqb x y
  | PNum x, PBool y => Qeq_bool x (if y then 1 else 0)
  | PBool x, PNum y => Qeq_bool (if x then 1 else 0) y
  | PStr x, PStr y => String.eqb x y
  | _, _ => false
  end.

Definition validates (v : pyval) (val : validator) : bool :=
  match val, v with
  | Numbers lo hi, PNum q => Qle_bool lo q && Qle_bool q hi
  | Numbers _ _, _ => false
  | EnumV l, _ => existsb (pyval_eqb v) l
  end.

Record parameter : Type := mkParameter {
  set_cmd : string;
  vals : list validator;
  to_raw : pyval -> option arg
}.

(** [parameter.set(value)]: validate, translate, write the command. *)
Definition param_set (i : inst) (p : parameter) (v : pyval) : M unit :=
  if forallb (validates v) (vals p) then
    match to_raw p v with
    | Some a => emit (EWrite i (Fmt (set_cmd p) [a])) ;; ret tt
    | None => raise KeyError
    end
  else raise (ValueError "invalid value").

(** [str(v)] as substituted by [{}]. *)
Definition str_arg (v : pyval) : arg :=
  match v with
  | PNone => AStr "None"
  | PNum q => ANum q
  | PBool b => AStr (if b then "True" else "False")
  | PStr s => AStr s
  end.





(** [FilterModule.count] *)
Definition filter_count : parameter :=
  mkParameter "SENS:VOLT:DFIL:COUNT {}" [Numbers 1 100] (fun v => Some (str_arg v)).

(** [FilterModule.window]: no [vals];
    [set_parser=lambda v: 'NONE' if v is None else str(v)]. *)
Definition filter_window : parameter :=
  mkParameter "SENS:VOLT:DFIL:WINDOW {}" []
    (fun v => match v with PNone => Some (AStr "NONE") | _ => Some (str_arg v) end).


End Station.

(** ** A decimal reading of Python's [float] on numeric literals

    Surrounding whitespace, an optional sign, digits with an optional
    decimal point, an optional exponent. *)

Definition digit_val (c : ascii) : option Z :=
  let n := nat_of_ascii c in
  if (48 <=? n)%nat && (n <=? 57)%nat then Some (Z.of_nat (n - 48)) else None.

(** Greedy digit run: value, number of digits, rest. *)
Fixpoint take_digits (s : string) (acc : Z) (k : nat) : Z * nat * string :=
  match s with
  | String c s' =>
      match digit_val c with
      | Some d => take_digits s' (acc * 10 + d) (S k)
      | None => (acc, k, s)
      end
  | EmptyString => (acc, k, s)
  end.

Definition is_space (c : ascii) : bool :=
  let n := nat_of_ascii c in
  (n =? 32)%nat || (n =? 9)%nat || (n =? 10)%nat || (n =? 13)%nat.

Fixpoint lstrip (s : string) : string :=
  match s with
  | String c s' => if is_space c then lstrip s' else s
  | EmptyString => EmptyString
  end.

Fixpoint rev_string (s : string) (acc : string) : string :=
  match s with
  | String c s' => rev_string s' (String c acc)
  | EmptyString => acc
  end.

Definition strip (s : string) : string :=
  rev_string (lstrip (rev_string (lstrip s) EmptyString)) EmptyString.

Definition take_sign (s : string) : Z * string :=
  match s with
  | String "-" s' => (-1, s')%Z
  | String "+" s' => (1, s')%Z
  | _ => (1%Z, s)
  end.

Definition pow10 (e : Z) : Q :=
  if (0 <=? e)%Z then inject_Z (10 ^ e) else 1 / inject_Z (10 ^ (- e)).

(** A concrete [float()] for the test doubles: plain decimal literals
    with optional sign, fraction and exponent, surrounded by spaces.  It
    is narrower than Python's (no [inf], [nan] or digit separators) and
    only instantiates the abstract [float_of] at fixed inputs. *)
Definition decimal_float (s : string) : option Q :=
  let '(sg, s1) := take_sign (strip s) in
  let '(ip, k1, s2) := take_digits s1 0 0 in
  let '(fp, k2, s3) :=
    match s2 with
    | String "." s2' => take_digits s2' ip 0
    | _ => (ip, 0%nat, s2)
    end in
  if (k1 + k2 =? 0)%nat then None else
  let exp :=
    match s3 with
    | String e s3' =>
        if Ascii.eqb e "e" || Ascii.eqb e "E" then
          let '(esg, s4) := take_sign s3' in
          let '(ev, k3, s5) := take_digits s4 0 0 in
          if (k3 =? 0)%nat then None
          else match s5 with EmptyString => Some (esg * ev)%Z | _ => None end
        else None
    | EmptyString => Some 0%Z
    end in
  match exp with
  | Some ex => Some (Qred (inject_Z (sg * fp) * pow10 (ex - Z.of_nat k2)))
  | None => None
  end.

(** ** Reachable [ProbeStation] states

    After a successful construction, the public operations of the object
    are [set_mode], [measure_cvc] and [nplc]; an operation that raises
    still leaves the object in the state it reached. *)

Inductive op : Type :=
| OpSetMode (m : string)
| OpMeasure (vs : list Q)
| OpNplc (value : Q).

Definition run_op dev float_of (o : op) (w : world) : world :=
  match o with
  | OpSetMode m => snd (run (set_mode m) w)
  | OpMeasure vs => snd (run (measure_cvc dev float_of vs) w)
  | OpNplc v => snd (run (nplc dev v) w)
  end.

Inductive reachable dev float_of : world -> Prop :=
| reach_create : forall vm w0 w,
    run (create dev vm) w0 = (Ok tt, w) -> reachable dev float_of w
| reach_op : forall o w,
    reachable dev float_of w -> reachable dev float_of (run_op dev float_of o w).

Definition mode_inv (s : station) : Prop :=
  (mode s = "2wire" \/ mode s = "4wire") /\
  (mode s = "4wire" -> has_voltmeter s = true).

(** The setpoints written to the source-meter's [volt] parameter. *)
Fixpoint volt_writes (l : list event) : list Q :=
  match l with
  | [] => []
  | EParam Source name (PNum q) :: l' =>
      if String.eqb name "volt" then q :: volt_writes l' else volt_writes l'
  | _ :: l' => volt_writes l'
  end.

Definition on_source (e : event) : bool :=
  match e with
  | EWrite Source _ | EAsk Source _ | EParam Source _ _ => true
  | _ => false
  end.

(** The six initialization commands on the source-meter, as listed in
    the specification. *)
Definition init_six : list event :=
  [EParam Source "terminals" (PStr "rear");
   EWrite Source (Lit ":SENSe:RESistance:MODE MAN");
   EParam Source "mode" (PStr "VOLT");
   EParam Source "rangev" (PNum (21 # 100));
   EParam Source "volt" (PNum (3 # 100));
   EParam Source "output" (PBool true)].

(** A test double: fixed answers to the source-meter's and the
    voltmeter's queries, every write accepted. *)
Definition mock_dev (src_answer vm_answer : string) : list event -> event -> option string :=
  fun _ e =>
    match e with
    | EAsk Source _ => Some src_answer
    | EAsk Voltmeter _ => Some vm_answer
    | _ => Some ""
    end.

Definition empty_world : world := mkWorld (mkStation false "2wire" 0) [].

(** [beep] raises [ValueError] and leaves the world unchanged. *)
Definition beep_fails dev (f d : option Q) (w : world) : Prop :=
  exists msg, run (beep dev f d) w = (Raise (ValueError msg), w).

(** ** Further Keithley 2182A declarations *)



(** Python's [str.isspace] on ASCII characters. *)
Definition py_is_space (c : ascii) : bool :=
  let n := nat_of_ascii c in
  ((9 <=? n) && (n <=? 13))%nat || ((28 <=? n) && (n <=? 32))%nat.

Fixpoint py_lstrip (s : string) : string :=
  match s with
  | String c s' => if py_is_space c then py_lstrip s' else s
  | EmptyString => EmptyString
  end.

(** [s.strip()] *)
Definition py_strip (s : string) : string :=
  rev_string (py_lstrip (rev_string (py_lstrip s) EmptyString)) EmptyString.

Definition ascii_upper (c : ascii) : ascii :=
  let n := nat_of_ascii c in
  if ((97 <=? n) && (n <=? 122))%nat then ascii_of_nat (n - 32) else c.

(** [s.upper()] on ASCII strings. *)
Fixpoint py_upper (s : string) : string :=
  match s with
  | String c s' => String (ascii_upper c) (py_upper s')
  | EmptyString => EmptyString
  end.

(** [FilterModule.window.get()]: query, then
    [get_parser=lambda v: None if v.strip().upper() == 'NONE' else float(v)]. *)
Definition window_get dev float_of : M (option Q) :=
  let* v := ask dev Voltmeter "SENS:VOLT:DFIL:WINDOW?" in
  if String.eqb (py_upper (py_strip v)) "NONE" then ret None
  else let* q := py_float float_of v in ret (Some q).

(** ** Generic lemmas on the monad *)

Definition keeps_ps {A} (m : M A) : Prop := forall w, ps (snd (m w)) = ps w.

Definition no_volt {A} (m : M A) : Prop :=
  forall w, exists new, trace (snd (m w)) = (trace w ++ new)%list /\ volt_writes new = [].

(** Every interaction [m] adds satisfies [P]. *)
Definition emits_only (P : event -> bool) {A} (m : M A) : Prop :=
  forall w, exists new, trace (snd (m w)) = (trace w ++ new)%list /\ forallb P new = true.

(** [m] never raises [AttributeError] from a state whose mode flag is
    backed by a voltmeter. *)
Definition no_attr_err {A} (m : M A) : Prop :=
  forall w, (mode (ps w) = "4wire" -> has_voltmeter (ps w) = true) ->
            fst (m w) <> Raise AttributeError.

Lemma bind_ok {A B} (m : M A) (k : A -> M B) w x w' :
  bind m k w = (Ok x, w') -> exists a w1, m w = (Ok a, w1) /\ k a w1 = (Ok x, w').
Proof.
  unfold bind. destruct (m w) as [[a|e] w1]; intro H; [eauto | discriminate].
Qed.

Lemma bind_raise {A B} (m : M A) (k : A -> M B) w e w' :
  bind m k w = (Raise e, w') ->
  m w = (Raise e, w') \/ exists a w1, m w = (Ok a, w1) /\ k a w1 = (Raise e, w').
Proof.
  unfold bind. destruct (m w) as [[a|e1] w1]; intro H; [eauto | inversion H; auto].
Qed.

Lemma keeps_bind {A B} (m : M A) (k : A -> M B) :
  keeps_ps m -> (forall a, keeps_ps (k a)) -> keeps_ps (bind m k).
Proof.
  intros Hm Hk w. unfold bind. specialize (Hm w).
  destruct (m w) as [[a|e] w1]; cbn in *; [rewrite Hk|]; auto.
Qed.

Lemma keeps_ret {A} (a : A) : keeps_ps (ret a).
Proof. intro; reflexivity. Qed.

Lemma keeps_raise {A} e : keeps_ps (@raise A e).
Proof. intro; reflexivity. Qed.

Lemma keeps_get : keeps_ps get_ps.
Proof. intro; reflexivity. Qed.

Lemma keeps_emit dev e : keeps_ps (emit dev e).
Proof. intro w; unfold emit; destruct (dev _ _); reflexivity. Qed.

Lemma keeps_sleep d : keeps_ps (sleep d).
Proof. intro; reflexivity. Qed.

Lemma keeps_py_float float_of s : keeps_ps (py_float float_of s).
Proof. unfold py_float; destruct (float_of s); intro; reflexivity. Qed.

Lemma keeps_py_index {A} (l : list A) n : keeps_ps (py_index l n).
Proof. unfold py_index; destruct (nth_error l n); intro; reflexivity. Qed.

Lemma volt_writes_app l1 l2 :
  volt_writes (l1 ++ l2) = (volt_writes l1 ++ volt_writes l2)%list.
Proof.
  induction l1 as [|e l1 IH]; [reflexivity|].
  destruct e as [i c|i c|[|] name [|q| |]|d]; cbn; rewrite ?IH; auto.
  destruct (String.eqb name "volt"); cbn; rewrite ?IH; auto.
Qed.

Lemma no_volt_bind {A B} (m : M A) (k : A -> M B) :
  no_volt m -> (forall a, no_volt (k a)) -> no_volt (bind m k).
Proof.
  intros Hm Hk w. unfold bind. destruct (Hm w) as [n1 [E1 V1]].
  destruct (m w) as [[a|e] w1]; cbn in *.
  - destruct (Hk a w1) as [n2 [E2 V2]]. exists (n1 ++ n2)%list.
    rewrite E2, E1, app_assoc, volt_writes_app, V1, V2. auto.
  - eauto.
Qed.

Lemma no_volt_ret {A} (a : A) : no_volt (ret a).
Proof. intro w; exists []; rewrite app_nil_r; auto. Qed.

Lemma no_volt_raise {A} e : no_volt (@raise A e).
Proof. intro w; exists []; rewrite app_nil_r; auto. Qed.

Lemma no_volt_get : no_volt get_ps.
Proof. intro w; exists []; rewrite app_nil_r; auto. Qed.

Lemma no_volt_sleep d : no_volt (sleep d).
Proof. intro w; exists [ESleep d]; auto. Qed.

Lemma no_volt_emit dev e : volt_writes [e] = [] -> no_volt (emit dev e).
Proof. intros V w; exists [e]; unfold emit; destruct (dev _ _); auto. Qed.

Lemma no_volt_py_float float_of s : no_volt (py_float float_of s).
Proof. unfold py_float; destruct (float_of s); [apply no_volt_ret | apply no_volt_raise]. Qed.

Lemma no_volt_py_index {A} (l : list A) n : no_volt (py_index l n).
Proof. unfold py_index; destruct (nth_error l n); [apply no_volt_ret | apply no_volt_raise]. Qed.

Lemma keeps_write dev i c : keeps_ps (write dev i c).
Proof. unfold write; apply keeps_bind; auto using keeps_emit, keeps_ret. Qed.

Lemma keeps_ask dev i c : keeps_ps (ask dev i c).
Proof. apply keeps_emit. Qed.

Lemma keeps_param dev i n v : keeps_ps (param dev i n v).
Proof. unfold param; apply keeps_bind; auto using keeps_emit, keeps_ret. Qed.

Lemma no_volt_write dev i c : no_volt (write dev i c).
Proof. unfold write; apply no_volt_bind; [apply no_volt_emit; reflexivity | intro; apply no_volt_ret]. Qed.

Lemma no_volt_ask dev i c : no_volt (ask dev i c).
Proof. apply no_volt_emit; reflexivity. Qed.

Create HintDb station.
#[local] Hint Resolve keeps_bind keeps_ret keeps_raise keeps_get keeps_emit keeps_sleep
  keeps_py_float keeps_py_index keeps_write keeps_ask keeps_param : station.
#[local] Hint Resolve no_volt_bind no_volt_ret no_volt_raise no_volt_get no_volt_sleep
  no_volt_py_float no_volt_py_index no_volt_write no_volt_ask : station.

(** Decompose a monadic program into its primitive steps. *)
Ltac step_tac base :=
  repeat (intros; first
    [ solve [base]
    | apply keeps_bind | apply no_volt_bind
    | match goal with
      | |- context [if ?b then _ else _] => destruct b
      | |- context [match ?t with pair _ _ => _ end] => destruct t
      end ]).

Lemma keeps_cv4 dev float_of : keeps_ps (measure_cv_4_wire dev float_of).
Proof.
  unfold measure_cv_4_wire. step_tac ltac:(auto with station).
Qed.

Lemma keeps_cv2 dev float_of : keeps_ps (measure_cv_2_wire dev float_of).
Proof.
  unfold measure_cv_2_wire. step_tac ltac:(auto with station).
Qed.

Lemma keeps_nplc dev v : keeps_ps (nplc dev v).
Proof. unfold nplc. step_tac ltac:(auto with station). Qed.

Lemma keeps_sweep_body dev float_of v acc : keeps_ps (sweep_body dev float_of v acc).
Proof.
  unfold sweep_body. destruct acc as [[mv mi] ms].
  step_tac ltac:(auto using keeps_cv4, keeps_cv2 with station).
Qed.

Lemma keeps_sweep dev float_of vs : forall acc, keeps_ps (sweep dev float_of vs acc).
Proof.
  induction vs as [|v vs IH]; intro acc; cbn.
  - apply keeps_ret.
  - apply keeps_bind; [apply keeps_sweep_body | exact IH].
Qed.

Lemma keeps_measure_cvc dev float_of vs : keeps_ps (measure_cvc dev float_of vs).
Proof.
  unfold measure_cvc. step_tac ltac:(auto using keeps_sweep with station).
Qed.

Ltac nv_base := first [ solve [auto with station] | apply no_volt_emit; reflexivity ].

Lemma no_volt_cv4 dev float_of : no_volt (measure_cv_4_wire dev float_of).
Proof. unfold measure_cv_4_wire. step_tac nv_base. Qed.

Lemma no_volt_cv2 dev float_of : no_volt (measure_cv_2_wire dev float_of).
Proof. unfold measure_cv_2_wire. step_tac nv_base. Qed.


Lemma param_then dev i name v {B} (k : unit -> M B) :
  (forall u, no_volt (k u)) ->
  forall w, exists new,
    trace (snd (bind (param dev i name v) k w)) = (trace w ++ new)%list
    /\ volt_writes new = volt_writes [EParam i name v].
Proof.
  intros Hk w. unfold param, bind, emit at 1, ret. cbn.
  destruct (dev (trace w) (EParam i name v)) as [r|]; cbn.
  - destruct (Hk tt (mkWorld (ps w) (trace w ++ [EParam i name v])%list)) as [n [E V]].
    exists (EParam i name v :: n). cbn in E. rewrite E, <- app_assoc. split; [reflexivity|].
    change (EParam i name v :: n) with ([EParam i name v] ++ n)%list.
    rewrite volt_writes_app, V, app_nil_r. reflexivity.
  - exists [EParam i name v]. auto.
Qed.

(** Every iteration writes its own setpoint and no other. *)
Lemma sweep_body_volt dev float_of v acc w :
  exists new, trace (snd (sweep_body dev float_of v acc w)) = (trace w ++ new)%list
              /\ volt_writes new = [v].
Proof.
  unfold sweep_body. destruct acc as [[mv mi] ms].
  apply (param_then dev Source "volt" (PNum v)).
  step_tac ltac:(auto using no_volt_cv4, no_volt_cv2 with station).
Qed.

Lemma sweep_raise dev float_of vs : forall acc w e w',
  sweep dev float_of vs acc w = (Raise e, w') ->
  exists (k : nat) acc_k w_k new,
    (k < length vs)%nat /\
    sweep_body dev float_of (nth k vs 0) acc_k w_k = (Raise e, w') /\
    trace w' = (trace w ++ new)%list /\
    volt_writes new = firstn (S k) vs.
Proof.
  induction vs as [|v vs IH]; intros acc w e w' H; cbn in H.
  - discriminate H.
  - apply bind_raise in H as [Hb | [acc' [w1 [Hb Hs]]]].
    + destruct (sweep_body_volt dev float_of v acc w) as [n [E V]].
      rewrite Hb in E. cbn in E.
      exists 0%nat, acc, w, n. cbn. repeat split; auto; lia.
    + destruct (IH acc' w1 e w' Hs) as [k [acc_k [w_k [n2 [Hk [Hb2 [E2 V2]]]]]]].
      destruct (sweep_body_volt dev float_of v acc w) as [n1 [E1 V1]].
      rewrite Hb in E1. cbn in E1.
      exists (S k), acc_k, w_k, (n1 ++ n2)%list. cbn.
      repeat split; auto; [lia | |].
      * rewrite E2, E1, app_assoc. reflexivity.
      * rewrite volt_writes_app, V1, V2. reflexivity.
Qed.

Lemma sweep_app dev float_of pre : forall rest acc w,
  sweep dev float_of (pre ++ rest) acc w
  = bind (sweep dev float_of pre acc) (fun a => sweep dev float_of rest a) w.
Proof.
  induction pre as [|v pre IH]; intros rest acc w; cbn; [reflexivity|].
  unfold bind. destruct (sweep_body dev float_of v acc w) as [[a|e] w1].
  - rewrite IH. reflexivity.
  - reflexivity.
Qed.

Lemma sweep_ok_volt dev float_of vs : forall acc w r w',
  sweep dev float_of vs acc w = (Ok r, w') ->
  exists new, trace w' = (trace w ++ new)%list /\ volt_writes new = vs.
Proof.
  induction vs as [|v vs IH]; intros acc w r w' H; cbn in H.
  - inversion H; subst. exists []. rewrite app_nil_r. auto.
  - apply bind_ok in H as [acc' [w1 [Hb Hs]]].
    destruct (sweep_body_volt dev float_of v acc w) as [n1 [E1 V1]].
    rewrite Hb in E1. cbn in E1.
    destruct (IH acc' w1 r w' Hs) as [n2 [E2 V2]].
    exists (n1 ++ n2)%list. rewrite E2, E1, app_assoc, volt_writes_app, V1, V2. auto.
Qed.

(** Peel the successful binds of a hypothesis. *)
Ltac peel H :=
  repeat (cbv beta in H;
    match type of H with
    | bind _ _ _ = (Ok _, _) =>
        let a := fresh "a" in let w1 := fresh "w" in let H1 := fresh "Hs" in
        apply bind_ok in H as [a [w1 [H1 H]]]
    end).

Lemma sweep_body_ok dev float_of v mv mi ms w a b c w' :
  sweep_body dev float_of v (mv, mi, ms) w = (Ok (a, b, c), w') ->
  ps w' = ps w /\ length a = S (length mv) /\ length b = S (length mi) /\
  length c = (length ms + if String.eqb (mode (ps w)) "4wire" then 1 else 0)%nat.
Proof.
  intro H.
  assert (Hps : ps w' = ps w).
  { pose proof (keeps_sweep_body dev float_of v (mv, mi, ms) w) as K.
    rewrite H in K. exact K. }
  unfold sweep_body in H. peel H.
  pose proof (keeps_param dev Source "volt" (PNum v) w) as K.
  rewrite Hs in K. cbn in K.
  unfold get_ps in Hs0. inversion Hs0; subst. rewrite K in H.
  destruct (String.eqb (mode (ps w)) "4wire").
  - apply bind_ok in H as [[[x y] z] [w2 [Ht H]]]. unfold ret in H. inversion H; subst.
    rewrite !length_app. cbn. repeat split; auto; lia.
  - apply bind_ok in H as [[x y] [w2 [Ht H]]]. unfold ret in H. inversion H; subst.
    rewrite !length_app. cbn. repeat split; auto; lia.
Qed.

Lemma sweep_ok_length dev float_of vs : forall mv mi ms w a b c w',
  sweep dev float_of vs (mv, mi, ms) w = (Ok (a, b, c), w') ->
  ps w' = ps w /\
  length a = (length mv + length vs)%nat /\ length b = (length mi + length vs)%nat /\
  length c = (length ms + if String.eqb (mode (ps w)) "4wire" then length vs else 0)%nat.
Proof.
  induction vs as [|v vs IH]; intros mv mi ms w a b c w' H; cbn in H.
  - inversion H; subst. cbn. destruct (String.eqb _ _); repeat split; lia.
  - apply bind_ok in H as [[[mv1 mi1] ms1] [w1 [Hb Hs]]].
    apply sweep_body_ok in Hb as [P1 [L1 [L2 L3]]].
    apply IH in Hs as [P2 [L4 [L5 L6]]].
    rewrite P1 in L6. cbn.
    destruct (String.eqb (mode (ps w)) "4wire"); repeat split; try congruence; lia.
Qed.

(** Case on every transport answer met in a hypothesis. *)
Ltac crush H :=
  repeat (cbn in H;
    match type of H with
    | context [match ?x with Some _ => _ | None => _ end] =>
        let E := fresh "E" in destruct x eqn:E; try discriminate H
    | context [match ?x with [] => _ | _ :: _ => _ end] =>
        let E := fresh "E" in destruct x eqn:E; try discriminate H
    end).

Lemma create_ok dev vm w0 w :
  run (create dev vm) w0 = (Ok tt, w) ->
  ps w = mkStation vm (if vm then "4wire" else "2wire") (1 # 100) /\
  trace w = (trace w0 ++ [EParam Source "nplcv" (PNum 1)]
             ++ (if vm then [EParam Voltmeter "nplc" (PNum 1)] else [])
             ++ init_six)%list.
Proof.
  unfold run, create, nplc, param, write, emit, put_ps, get_ps, bind, ret.
  intro H. destruct vm; crush H; inversion H; subst; cbn;
    rewrite <- ?app_assoc; auto.
Qed.

Lemma set_mode_cases m w :
  snd (run (set_mode m) w) = w \/
  (run (set_mode m) w = (Ok tt, mkWorld (mkStation (has_voltmeter (ps w)) m (delay (ps w))) (trace w))
   /\ (m = "2wire" \/ m = "4wire") /\ (m = "4wire" -> has_voltmeter (ps w) = true)).
Proof.
  unfold run, set_mode, py_in, get_ps, put_ps, bind, raise. cbn.
  destruct (String.eqb m "2wire") eqn:E2; destruct (String.eqb m "4wire") eqn:E4;
    cbn; auto.
  - apply String.eqb_eq in E2, E4. subst. discriminate E4.
  - apply String.eqb_eq in E2. subst. right. split; [reflexivity|].
    split; [auto|]. intro X; discriminate X.
  - apply String.eqb_eq in E4. subst.
    destruct (has_voltmeter (ps w)) eqn:Hv; cbn; auto.
Qed.

Lemma reachable_station dev float_of w :
  reachable dev float_of w -> mode_inv (ps w) /\ delay (ps w) = 1 # 100.
Proof.
  induction 1 as [vm w0 w H | o w R [[Hm Hv] Hd]].
  - apply create_ok in H as [P _]. rewrite P.
    destruct vm; cbn; unfold mode_inv; cbn; split; auto; split; auto; discriminate.
  - destruct o as [m | vs | v]; cbn.
    + destruct (set_mode_cases m w) as [E | [E [Hm' Hv']]].
      * rewrite E. unfold mode_inv. auto.
      * rewrite E. cbn. unfold mode_inv. cbn. auto.
    + unfold run. rewrite (keeps_measure_cvc dev float_of vs w). unfold mode_inv. auto.
    + unfold run. rewrite (keeps_nplc dev v w). unfold mode_inv. auto.
Qed.

Lemma qrange_bool lo hi q :
  (Qle_bool lo q && Qle_bool q hi) = true <-> lo <= q /\ q <= hi.
Proof. rewrite andb_true_iff, !Qle_bool_iff. tauto. Qed.

Lemma qrange_bool_false lo hi q :
  (Qle_bool lo q && Qle_bool q hi) = false <-> ~ (lo <= q /\ q <= hi).
Proof.
  rewrite <- qrange_bool. destruct (Qle_bool lo q && Qle_bool q hi); split; intro X.
  - discriminate X.
  - exfalso; apply X; reflexivity.
  - intro Y; discriminate Y.
  - reflexivity.
Qed.

(** ** Claims *)

(** C1: when a sweep over [N] setpoints raises nothing, the voltage and
    current sequences have length [N]; in 2-wire mode the third component
    is [None] (and the empty sweep gives two empty lists and [None]), in
    4-wire mode it is a list of length [N]. *)
Theorem measure_cvc_lengths :
  forall dev float_of,
  (forall vs w mv mi ms w',
    run (measure_cvc dev float_of vs) w = (Ok (mv, mi, ms), w') ->
    length mv = length vs /\ length mi = length vs /\
    (mode (ps w) = "2wire" -> ms = None) /\
    (mode (ps w) = "4wire" -> exists l, ms = Some l /\ length l = length vs)) /\
  (forall w, mode (ps w) = "2wire" ->
    run (measure_cvc dev float_of []) w = (Ok ([], [], None), w)).
Proof.
  intros dev float_of. split.
  - intros vs w mv mi ms w' H. unfold run, measure_cvc in H.
    apply bind_ok in H as [[[a b] c] [w1 [Hs H]]].
    apply sweep_ok_length in Hs as [P [La [Lb Lc]]]. cbn in La, Lb, Lc.
    unfold get_ps, bind in H. cbn in H. rewrite P in H.
    destruct (String.eqb (mode (ps w)) "4wire") eqn:E4;
      unfold ret in H; inversion H; subst.
    + apply String.eqb_eq in E4. repeat split; auto.
      * intro X. rewrite E4 in X. discriminate X.
      * intros _. eexists; split; [reflexivity | auto].
    + apply String.eqb_neq in E4. repeat split; auto.
      intro X. contradiction.
  - intros w Hm. unfold run, measure_cvc, get_ps, bind, ret. cbn.
    rewrite Hm. reflexivity.
Qed.

(** C2: in 2-wire mode an iteration sets the setpoint, sends [INIT],
    queries [FETC?] and reads the two comma-separated fields as floats;
    with the answer "0.0301,0.000142", the sweep over [0.03] yields
    ([0.0301], [0.000142], None). *)
Theorem two_wire_point :
  (forall dev float_of v mv mi ms w r1 r2 rs p0 p1 rest x y,
    mode (ps w) = "2wire" ->
    dev (trace w) (EParam Source "volt" (PNum v)) = Some r1 ->
    dev (trace w ++ [EParam Source "volt" (PNum v)])%list
        (EWrite Source (Lit "INIT")) = Some r2 ->
    dev ((trace w ++ [EParam Source "volt" (PNum v)]) ++ [EWrite Source (Lit "INIT")])%list
        (EAsk Source "FETC?") = Some rs ->
    py_split_comma rs = p0 :: p1 :: rest ->
    float_of p0 = Some x -> float_of p1 = Some y ->
    run (sweep_body dev float_of v (mv, mi, ms)) w =
      (Ok ((mv ++ [x])%list, (mi ++ [y])%list, ms),
       mkWorld (ps w) (trace w ++ [EParam Source "volt" (PNum v);
                                   EWrite Source (Lit "INIT");
                                   EAsk Source "FETC?"])%list)) /\
  (forall w, mode (ps w) = "2wire" ->
    fst (run (measure_cvc (mock_dev "0.0301,0.000142" "") decimal_float [3 # 100]) w)
    = Ok ([Qred (301 # 10000)], [Qred (142 # 1000000)], None)).
Proof.
  split.
  - intros dev float_of v mv mi ms w r1 r2 rs p0 p1 rest x y
      Hm D1 D2 D3 Sp F0 F1.
    unfold run, sweep_body, measure_cv_2_wire, write, ask, param, emit, get_ps,
      bind, ret, py_index, py_float. cbn.
    rewrite D1. cbn. rewrite Hm. cbn. rewrite D2. cbn. rewrite D3. cbn.
    rewrite Sp. cbn. rewrite F0, F1. rewrite <- !app_assoc. reflexivity.
  - intros [[hv md dl] tr] Hm. cbn in Hm. subst md. vm_compute. reflexivity.
Qed.

(** C3: [set_mode] raises [ValueError] for a tag outside {2wire, 4wire};
    [set_mode "4wire"] raises [RuntimeError] without a voltmeter; with a
    voltmeter it succeeds, and calling it again changes nothing. *)
Theorem set_mode_errors :
  (forall m w, m <> "2wire" -> m <> "4wire" ->
     exists msg, run (set_mode m) w = (Raise (ValueError msg), w)) /\
  (forall w, has_voltmeter (ps w) = false ->
     exists msg, run (set_mode "4wire") w = (Raise (RuntimeError msg), w)) /\
  (forall w, has_voltmeter (ps w) = true ->
     exists w1, run (set_mode "4wire") w = (Ok tt, w1) /\ mode (ps w1) = "4wire" /\
                run (set_mode "4wire") w1 = (Ok tt, w1)).
Proof.
  split; [|split].
  - intros m w H2 H4. unfold run, set_mode, py_in. cbn.
    apply String.eqb_neq in H2, H4. rewrite H2, H4. cbn. eexists; reflexivity.
  - intros w Hv. unfold run, set_mode, get_ps, bind. cbn. rewrite Hv. cbn.
    eexists; reflexivity.
  - intros w Hv. unfold run, set_mode, get_ps, put_ps, bind. cbn. rewrite Hv. cbn.
    eexists; split; [reflexivity|]. cbn. split; reflexivity.
Qed.

(** C4: after construction the mode is "4wire" exactly when a voltmeter
    was supplied and "2wire" otherwise; in every reachable state the mode
    is one of the two tags and "4wire" implies a voltmeter; [set_mode]
    preserves this, and no other operation changes the mode. *)
Theorem mode_invariant :
  forall dev float_of,
  (forall vm w0 w, run (create dev vm) w0 = (Ok tt, w) ->
     (mode (ps w) = "4wire" <-> vm = true) /\ (mode (ps w) = "2wire" <-> vm = false) /\
     has_voltmeter (ps w) = vm) /\
  (forall w, reachable dev float_of w -> mode_inv (ps w)) /\
  (forall m w, mode_inv (ps w) ->
     mode_inv (ps (snd (run (set_mode m) w))) /\
     has_voltmeter (ps (snd (run (set_mode m) w))) = has_voltmeter (ps w)) /\
  (forall o w, (forall m, o <> OpSetMode m) ->
     mode (ps (run_op dev float_of o w)) = mode (ps w)).
Proof.
  intros dev float_of. split; [|split; [|split]].
  - intros vm w0 w H. apply create_ok in H as [P _]. rewrite P. cbn.
    destruct vm; repeat split; auto; discriminate.
  - intros w R. apply (reachable_station dev float_of w R).
  - intros m w I. destruct (set_mode_cases m w) as [E | [E [Hm Hv]]]; rewrite ?E; auto.
    cbn. unfold mode_inv. cbn. auto.
  - intros o w Ho. destruct o as [m | vs | v]; cbn.
    + destruct (Ho m eq_refl).
    + unfold run. rewrite (keeps_measure_cvc dev float_of vs w). reflexivity.
    + unfold run. rewrite (keeps_nplc dev v w). reflexivity.
Qed.

(** C5: [beep f d] raises [ValueError] exactly when an argument is
    omitted, the frequency is outside [65, 2e6] or the duration outside
    [0, 7.9], and then writes nothing; otherwise it writes exactly one
    command carrying both values; it fails at 64.9 Hz, 2000001 Hz, -0.1 s
    and 7.91 s; [success ()] is [beep(800, 1)]. *)
Theorem beep_validation :
  forall dev,
  (forall f d w,
     (exists msg w', run (beep dev f d) w = (Raise (ValueError msg), w')) <->
     (f = None \/ d = None \/
      (exists q, f = Some q /\ ~ (65 <= q /\ q <= 2000000)) \/
      (exists q, d = Some q /\ ~ (0 <= q /\ q <= 79 # 10)))) /\
  (forall f d w,
     (f = None \/ d = None \/
      (exists q, f = Some q /\ ~ (65 <= q /\ q <= 2000000)) \/
      (exists q, d = Some q /\ ~ (0 <= q /\ q <= 79 # 10))) ->
     beep_fails dev f d w) /\
  (forall f d w, 65 <= f /\ f <= 2000000 -> 0 <= d /\ d <= 79 # 10 ->
     trace (snd (run (beep dev (Some f) (Some d)) w)) =
     (trace w ++ [EWrite Source (Fmt ":SYSTem:BEEPer {freq},{duration}" [ANum f; ANum d])])%list) /\
  (forall w,
     beep_fails dev (Some (649 # 10)) (Some 1) w /\
     beep_fails dev (Some 2000001) (Some 1) w /\
     beep_fails dev (Some 800) (Some (-1 # 10)) w /\
     beep_fails dev (Some 800) (Some (791 # 100)) w /\
     beep_fails dev None (Some 1) w /\ beep_fails dev (Some 800) None w) /\
  (forall w, run (success dev) w = run (beep dev (Some 800) (Some 1)) w).
Proof.
  intro dev.
  assert (Hfail : forall f d w,
     (f = None \/ d = None \/
      (exists q, f = Some q /\ ~ (65 <= q /\ q <= 2000000)) \/
      (exists q, d = Some q /\ ~ (0 <= q /\ q <= 79 # 10))) ->
     beep_fails dev f d w).
  { intros f d w H. unfold beep_fails, run, beep.
    destruct f as [f|]; [|eexists; reflexivity].
    destruct d as [d|]; [|eexists; reflexivity].
    destruct H as [H|[H|[[q [Hq Hr]]|[q [Hq Hr]]]]]; try discriminate H.
    - injection Hq as <-. apply qrange_bool_false in Hr. rewrite Hr.
      cbn. eexists; reflexivity.
    - injection Hq as <-. apply qrange_bool_false in Hr. rewrite Hr.
      destruct (Qle_bool 65 f && Qle_bool f 2000000); cbn; eexists; reflexivity. }
  split; [|split; [exact Hfail|split; [|split]]].
  - intros f d w. split.
    + intros [msg [w' H]]. unfold run, beep in H.
      destruct f as [f|]; [|auto]. destruct d as [d|]; [|auto].
      destruct (Qle_bool 65 f && Qle_bool f 2000000) eqn:E1; cbn in H.
      * destruct (Qle_bool 0 d && Qle_bool d (79 # 10)) eqn:E2; cbn in H.
        -- unfold bind, emit in H. destruct (dev _ _); discriminate H.
        -- right; right; right. exists d. split; [reflexivity|].
           apply qrange_bool_false. exact E2.
      * right; right; left. exists f. split; [reflexivity|].
        apply qrange_bool_false. exact E1.
    + intro H. destruct (Hfail f d w H) as [msg E]. eauto.
  - intros f d w Hf Hd. unfold run, beep.
    apply qrange_bool in Hf, Hd. rewrite Hf, Hd. cbn.
    unfold bind, emit. destruct (dev _ _); reflexivity.
  - intro w. repeat split; apply Hfail.
    + right; right; left. eexists; split; [reflexivity|].
      intros [X _]. apply Qle_bool_iff in X. discriminate X.
    + right; right; left. eexists; split; [reflexivity|].
      intros [_ X]. apply Qle_bool_iff in X. discriminate X.
    + right; right; right. eexists; split; [reflexivity|].
      intros [X _]. apply Qle_bool_iff in X. discriminate X.
    + right; right; right. eexists; split; [reflexivity|].
      intros [_ X]. apply Qle_bool_iff in X. discriminate X.
    + left; reflexivity.
    + right; left; reflexivity.
  - intro w. reflexivity.
Qed.

(** C6: the filter window is declared without a validator: setting it to
    any number, e.g. 50 or 0.001, writes the command without a
    [ValueError], whereas its sibling [count] rejects an out-of-range
    value before writing. *)
Theorem filter_window_unvalidated :
  forall dev,
  (forall q w,
     trace (snd (run (param_set dev Voltmeter filter_window (PNum q)) w)) =
       (trace w ++ [EWrite Voltmeter (Fmt "SENS:VOLT:DFIL:WINDOW {}" [ANum q])])%list /\
     forall msg, fst (run (param_set dev Voltmeter filter_window (PNum q)) w)
                 <> Raise (ValueError msg)) /\
  (forall w, run (param_set dev Voltmeter filter_count (PNum 500)) w =
             (Raise (ValueError "invalid value"), w)).
Proof.
  intro dev. split.
  - intros q w. unfold run, param_set, filter_window. cbn.
    unfold bind, emit, ret. destruct (dev _ _); cbn; split; auto; intros msg X; discriminate X.
  - intro w. reflexivity.
Qed.

(** C7, as stated: construction issues exactly the six listed commands
    on the source-meter.  Refuted: the source-meter first receives the
    NPLC setting. *)
Lemma init_sequence_counterexample :
  fst (run (create (mock_dev "" "") false) empty_world) = Ok tt /\
  filter on_source (trace (snd (run (create (mock_dev "" "") false) empty_world)))
    <> init_six.
Proof. vm_compute. split; [reflexivity | intro X; discriminate X]. Qed.

(** C7, amended: a successful construction first sets the NPLC to 1 on
    the source-meter (and on the voltmeter when there is one), then issues
    on the source-meter, in order, the six listed commands. *)
Theorem init_sequence :
  forall dev vm w0 w, run (create dev vm) w0 = (Ok tt, w) ->
  exists new, trace w = (trace w0 ++ new)%list /\
    new = ([EParam Source "nplcv" (PNum 1)]
           ++ (if vm then [EParam Voltmeter "nplc" (PNum 1)] else []) ++ init_six)%list /\
    filter on_source new = EParam Source "nplcv" (PNum 1) :: init_six.
Proof.
  intros dev vm w0 w H. apply create_ok in H as [_ T].
  eexists; split; [exact T|]. split; [reflexivity|]. destruct vm; reflexivity.
Qed.

Lemma init_sequence_witness :
  let w := snd (run (create (mock_dev "" "") true) empty_world) in
  run (create (mock_dev "" "") true) empty_world = (Ok tt, w) /\
  exists new, trace w = (trace empty_world ++ new)%list /\
    new = ([EParam Source "nplcv" (PNum 1)]
           ++ [EParam Voltmeter "nplc" (PNum 1)] ++ init_six)%list /\
    filter on_source new = EParam Source "nplcv" (PNum 1) :: init_six.
Proof.
  intro w.
  assert (H : run (create (mock_dev "" "") true) empty_world = (Ok tt, w))
    by (vm_compute; reflexivity).
  split; [exact H | exact (init_sequence (mock_dev "" "") true empty_world w H)].
Defined.

(** C8: from any state with a voltmeter and the constructor's 10 ms
    delay (as in every cycle of a 4-wire sweep: every reachable station
    in 4-wire mode has both, and the sweep's [volt] write before the
    cycle keeps them), a successful cycle sends INIT to the source-meter,
    sleeps 10 ms, sends INIT to the voltmeter, queries the voltmeter,
    then the source-meter, and returns (voltmeter voltage, current,
    source-meter voltage) read from those answers. *)
Theorem four_wire_cycle :
  forall dev float_of w a b c w',
  has_voltmeter (ps w) = true -> delay (ps w) = 1 # 100 ->
  run (measure_cv_4_wire dev float_of) w = (Ok (a, b, c), w') ->
  trace w' = (trace w ++ [EWrite Source (Lit "INIT"); ESleep (1 # 100);
                          EWrite Voltmeter (Lit "INIT"); EAsk Voltmeter "FETC?";
                          EAsk Source "FETC?"])%list /\
  exists rv rs p0 p1 rest,
    dev (trace w ++ [EWrite Source (Lit "INIT"); ESleep (1 # 100);
                     EWrite Voltmeter (Lit "INIT")])%list (EAsk Voltmeter "FETC?") = Some rv /\
    float_of rv = Some a /\
    dev (trace w ++ [EWrite Source (Lit "INIT"); ESleep (1 # 100);
                     EWrite Voltmeter (Lit "INIT"); EAsk Voltmeter "FETC?"])%list
        (EAsk Source "FETC?") = Some rs /\
    py_split_comma rs = p0 :: p1 :: rest /\
    float_of p0 = Some c /\ float_of p1 = Some b.
Proof.
  intros dev float_of w a b c w' Hv Hd H.
  unfold run, measure_cv_4_wire, write, ask, py_float, py_index, sleep,
    emit, get_ps, bind, ret, raise in H.
  repeat first
    [ progress (cbn in H; rewrite ?Hv, ?Hd in H)
    | match type of H with
      | context [match ?x with Some _ => _ | None => _ end] =>
          let E := fresh "E" in destruct x eqn:E; try discriminate H
      | context [match ?x with [] => _ | _ :: _ => _ end] =>
          let E := fresh "E" in destruct x eqn:E; try discriminate H
      end ].
  inversion H; subst. cbn. rewrite <- !app_assoc in *. cbn in *.
  split; [reflexivity|].
  destruct (py_split_comma _) as [|p0 [|p1 rest]] eqn:Sp; try discriminate.
  injection E4 as <-. injection E6 as <-.
  do 5 eexists. repeat split; eassumption.
Qed.

(** C9: a failure at any sweep point aborts the sweep: if the points
    [pre] before setpoint [v] were measured and the iteration at [v]
    raises [e] (a malformed answer, a failed exchange), [measure_cvc]
    raises that same [e] in the very state the iteration left, nothing
    being written after it: the setpoints written are [pre] and [v] and
    none of [post], and no result is returned.  Conversely, whenever
    [measure_cvc] raises, the exception is the one raised by the
    iteration that failed, with nothing done after it, and the object
    keeps no partial results. *)
Theorem measure_cvc_aborts :
  forall dev float_of,
  (forall pre v post w acc w1 e w2,
     run (sweep dev float_of pre ([], [], [])) w = (Ok acc, w1) ->
     run (sweep_body dev float_of v acc) w1 = (Raise e, w2) ->
     run (measure_cvc dev float_of (pre ++ v :: post)) w = (Raise e, w2) /\
     exists new, trace w2 = (trace w ++ new)%list /\ volt_writes new = (pre ++ [v])%list) /\
  (forall vs w e w',
     run (measure_cvc dev float_of vs) w = (Raise e, w') ->
     ps w' = ps w /\
     exists (k : nat) acc_k w_k new,
       (k < length vs)%nat /\
       run (sweep_body dev float_of (nth k vs 0) acc_k) w_k = (Raise e, w') /\
       trace w' = (trace w ++ new)%list /\
       volt_writes new = firstn (S k) vs).
Proof.
  intros dev float_of. split.
  - intros pre v post w acc w1 e w2 H1 H2. unfold run in H1, H2.
    assert (Hs : sweep dev float_of (pre ++ v :: post) ([], [], []) w = (Raise e, w2)).
    { rewrite sweep_app. unfold bind at 1. rewrite H1. cbn [sweep].
      unfold bind. rewrite H2. reflexivity. }
    split.
    + unfold run, measure_cvc, bind at 1. rewrite Hs. reflexivity.
    + destruct (sweep_ok_volt dev float_of pre _ w acc w1 H1) as [n1 [E1 V1]].
      destruct (sweep_body_volt dev float_of v acc w1) as [n2 [E2 V2]].
      rewrite H2 in E2. cbn in E2.
      exists (n1 ++ n2)%list. rewrite E2, E1, app_assoc, volt_writes_app, V1, V2. auto.
  - intros vs w e w' H.
    split.
    + pose proof (keeps_measure_cvc dev float_of vs w) as K.
      unfold run in H. rewrite H in K. exact K.
    + unfold run, measure_cvc in H.
      apply bind_raise in H as [Hs | [[[mv mi] ms] [w1 [_ Hk]]]].
      * apply (sweep_raise dev float_of vs ([], [], []) w e w' Hs).
      * unfold get_ps, bind in Hk. cbn in Hk.
        destruct (String.eqb (mode (ps w1)) "4wire"); discriminate Hk.
Qed.

(** C10: [set_mode] sends nothing, and when it raises the object is left
    exactly as it was. *)
Theorem set_mode_atomic :
  forall m w,
  trace (snd (run (set_mode m) w)) = trace w /\
  (forall e w', run (set_mode m) w = (Raise e, w') -> w' = w).
Proof.
  intros m w. destruct (set_mode_cases m w) as [E | [E _]].
  - split; [rewrite E; reflexivity|].
    intros e w' H. rewrite H in E. exact E.
  - rewrite E. split; [reflexivity|]. intros e w' H. discriminate H.
Qed.

(** ** Witnesses *)

Lemma measure_cvc_lengths_witness :
  let r := run (measure_cvc (mock_dev "0.5,0.25" "") decimal_float [1; 2]) empty_world in
  r = (Ok ([1 # 2; 1 # 2], [1 # 4; 1 # 4], None), snd r) /\
  (length [1 # 2; 1 # 2] = length [1; 2] /\ length [1 # 4; 1 # 4] = length [1; 2] /\
   (mode (ps empty_world) = "2wire" -> @None (list Q) = None) /\
   (mode (ps empty_world) = "4wire" ->
      exists l, @None (list Q) = Some l /\ length l = length [1; 2])) /\
  run (measure_cvc (mock_dev "0.5,0.25" "") decimal_float []) empty_world
    = (Ok ([], [], None), empty_world).
Proof.
  intro r.
  assert (H : r = (Ok ([1 # 2; 1 # 2], [1 # 4; 1 # 4], None), snd r))
    by (vm_compute; reflexivity).
  split; [exact H|]. split.
  - exact (proj1 (measure_cvc_lengths (mock_dev "0.5,0.25" "") decimal_float)
             [1; 2] empty_world _ _ _ _ H).
  - exact (proj2 (measure_cvc_lengths (mock_dev "0.5,0.25" "") decimal_float)
             empty_world eq_refl).
Defined.

Lemma two_wire_point_witness :
  run (sweep_body (mock_dev "0.0301,0.000142" "") decimal_float (3 # 100) ([], [], []))
      empty_world =
    (Ok ([Qred (301 # 10000)], [Qred (142 # 1000000)], []),
     mkWorld (ps empty_world) [EParam Source "volt" (PNum (3 # 100));
                               EWrite Source (Lit "INIT"); EAsk Source "FETC?"]) /\
  fst (run (measure_cvc (mock_dev "0.0301,0.000142" "") decimal_float [3 # 100]) empty_world)
    = Ok ([Qred (301 # 10000)], [Qred (142 # 1000000)], None).
Proof.
  split.
  - exact (proj1 two_wire_point (mock_dev "0.0301,0.000142" "") decimal_float
             (3 # 100) [] [] [] empty_world "" "" "0.0301,0.000142" "0.0301" "0.000142" []
             (Qred (301 # 10000)) (Qred (142 # 1000000))
             eq_refl eq_refl eq_refl eq_refl eq_refl eq_refl eq_refl).
  - exact (proj2 two_wire_point empty_world eq_refl).
Defined.

Lemma set_mode_errors_witness :
  (exists msg, run (set_mode "bogus") empty_world = (Raise (ValueError msg), empty_world)) /\
  (exists msg, run (set_mode "4wire") empty_world = (Raise (RuntimeError msg), empty_world)) /\
  (exists w1, run (set_mode "4wire") (mkWorld (mkStation true "2wire" (1 # 100)) []) = (Ok tt, w1)
     /\ mode (ps w1) = "4wire" /\ run (set_mode "4wire") w1 = (Ok tt, w1)).
Proof.
  split; [|split].
  - exact (proj1 set_mode_errors "bogus" empty_world
             ltac:(intro X; discriminate X) ltac:(intro X; discriminate X)).
  - exact (proj1 (proj2 set_mode_errors) empty_world eq_refl).
  - exact (proj2 (proj2 set_mode_errors) (mkWorld (mkStation true "2wire" (1 # 100)) []) eq_refl).
Defined.

Lemma mode_invariant_witness :
  let d := mock_dev "" "" in
  let w := snd (run (create d true) empty_world) in
  run (create d true) empty_world = (Ok tt, w) /\
  ((mode (ps w) = "4wire" <-> true = true) /\ (mode (ps w) = "2wire" <-> true = false) /\
   has_voltmeter (ps w) = true) /\
  mode_inv (ps w).
Proof.
  intros d w.
  assert (H : run (create d true) empty_world = (Ok tt, w)) by (vm_compute; reflexivity).
  split; [exact H|]. split.
  - exact (proj1 (mode_invariant d decimal_float) true empty_world w H).
  - exact (proj1 (proj2 (mode_invariant d decimal_float)) w
             (reach_create d decimal_float true empty_world w H)).
Defined.

Lemma beep_validation_witness :
  beep_fails (mock_dev "" "") None (Some 1) empty_world /\
  trace (snd (run (beep (mock_dev "" "") (Some 800) (Some 1)) empty_world)) =
    [EWrite Source (Fmt ":SYSTem:BEEPer {freq},{duration}" [ANum 800; ANum 1])].
Proof.
  split.
  - exact (proj1 (proj2 (beep_validation (mock_dev "" ""))) None (Some 1) empty_world
             (or_introl eq_refl)).
  - exact (proj1 (proj2 (proj2 (beep_validation (mock_dev "" "")))) 800 1 empty_world
             (proj1 (qrange_bool 65 2000000 800) eq_refl)
             (proj1 (qrange_bool 0 (79 # 10) 1) eq_refl)).
Defined.

Lemma four_wire_cycle_witness :
  let d := mock_dev "0.0301,0.000142" "0.0302" in
  let w := snd (run (param d Source "volt" (PNum (1 # 10)))
                  (snd (run (create d true) empty_world))) in
  let r := run (measure_cv_4_wire d decimal_float) w in
  has_voltmeter (ps w) = true /\ delay (ps w) = 1 # 100 /\
  r = (Ok (Qred (302 # 10000), Qred (142 # 1000000), Qred (301 # 10000)), snd r) /\
  trace (snd r) = (trace w ++ [EWrite Source (Lit "INIT"); ESleep (1 # 100);
                               EWrite Voltmeter (Lit "INIT"); EAsk Voltmeter "FETC?";
                               EAsk Source "FETC?"])%list.
Proof.
  intros d w r.
  assert (R : has_voltmeter (ps w) = true) by (vm_compute; reflexivity).
  assert (Hm : delay (ps w) = 1 # 100) by (vm_compute; reflexivity).
  assert (H : r = (Ok (Qred (302 # 10000), Qred (142 # 1000000), Qred (301 # 10000)), snd r))
    by (vm_compute; reflexivity).
  split; [exact R|]. split; [exact Hm|]. split; [exact H|].
  exact (proj1 (four_wire_cycle d decimal_float w _ _ _ (snd r) R Hm H)).
Defined.

(** A source-meter that answers the first point and then garbles. *)
Lemma measure_cvc_aborts_witness :
  let d := fun (tr : list event) (e : event) =>
             match e with
             | EAsk Source _ => if (length tr <? 3)%nat then Some "0.5,0.25" else Some "bad"
             | _ => Some ""
             end in
  let s1 := run (sweep d decimal_float [1] ([], [], [])) empty_world in
  let s2 := run (sweep_body d decimal_float 2 ([Qred (5 # 10)], [Qred (25 # 100)], []))
              (snd s1) in
  (run (measure_cvc d decimal_float [1; 2; 3]) empty_world
     = (Raise (ValueError "could not convert string to float"), snd s2) /\
   exists new, trace (snd s2) = (trace empty_world ++ new)%list /\ volt_writes new = [1; 2]) /\
  ps (snd s2) = ps empty_world.
Proof.
  intros d s1 s2.
  assert (H1 : s1 = (Ok ([Qred (5 # 10)], [Qred (25 # 100)], []), snd s1))
    by (vm_compute; reflexivity).
  assert (H2 : s2 = (Raise (ValueError "could not convert string to float"), snd s2))
    by (vm_compute; reflexivity).
  pose proof (proj1 (measure_cvc_aborts d decimal_float) [1] 2 [3] empty_world _ _ _ _ H1 H2)
    as F.
  split; [exact F|].
  exact (proj1 (proj2 (measure_cvc_aborts d decimal_float) [1; 2; 3] empty_world _ _
                  (proj1 F))).
Defined.

Lemma set_mode_atomic_witness :
  run (set_mode "bogus") empty_world =
    (Raise (ValueError "Mode must be '2wire' or '4wire'"), empty_world) /\
  empty_world = empty_world.
Proof.
  assert (H : run (set_mode "bogus") empty_world =
              (Raise (ValueError "Mode must be '2wire' or '4wire'"), empty_world))
    by reflexivity.
  split; [exact H|].
  exact (proj2 (set_mode_atomic "bogus" empty_world) _ empty_world H).
Defined.

Example decimal_float_ex1 : decimal_float "0.0301" = Some (Qred (301 # 10000)).
Proof. reflexivity. Qed.

Example decimal_float_ex2 : decimal_float " -1.5e-3 " = Some (Qred ((-15) # 10000)).
Proof. reflexivity. Qed.

Example decimal_float_ex3 : decimal_float "abc" = None.
Proof. reflexivity. Qed.

Example split_ex : py_split_comma "0.0301,0.000142" = ["0.0301"; "0.000142"].
Proof. reflexivity. Qed.

(** ** Further properties of the code *)

Lemma emits_bind P {A B} (m : M A) (k : A -> M B) :
  emits_only P m -> (forall a, emits_only P (k a)) -> emits_only P (bind m k).
Proof.
  intros Hm Hk w. unfold bind. destruct (Hm w) as [n1 [E1 V1]].
  destruct (m w) as [[a|e] w1]; cbn in *.
  - destruct (Hk a w1) as [n2 [E2 V2]]. exists (n1 ++ n2)%list.
    rewrite E2, E1, app_assoc, forallb_app, V1, V2. auto.
  - eauto.
Qed.

Lemma emits_pure P {A} (m : M A) : (forall w, snd (m w) = w) -> emits_only P m.
Proof. intros H w. exists []. rewrite H, app_nil_r. auto. Qed.

Lemma emits_emit P dev e : P e = true -> emits_only P (emit dev e).
Proof. intros H w. exists [e]. unfold emit. cbn. rewrite H. destruct (dev _ _); auto. Qed.

Lemma emits_cv2 dev float_of : emits_only on_source (measure_cv_2_wire dev float_of).
Proof.
  unfold measure_cv_2_wire, write, ask, py_index, py_float.
  repeat (intros; first
    [ apply emits_bind
    | apply emits_emit; reflexivity
    | apply emits_pure; intro; reflexivity
    | match goal with
      | |- context [match ?t with Some _ => _ | None => _ end] => destruct t
      | |- context [match ?t with pair _ _ => _ end] => destruct t
      end ]).
Qed.

Lemma sweep_body_2w dev float_of v acc w :
  mode (ps w) <> "4wire" ->
  ps (snd (sweep_body dev float_of v acc w)) = ps w /\
  exists new, trace (snd (sweep_body dev float_of v acc w)) = (trace w ++ new)%list
              /\ forallb on_source new = true.
Proof.
  intro Hm. split; [apply keeps_sweep_body|].
  unfold sweep_body. destruct acc as [[mv mi] ms].
  unfold bind at 1, param at 1, bind at 1, emit at 1, ret at 1. cbn.
  destruct (dev (trace w) (EParam Source "volt" (PNum v))); cbn.
  - unfold get_ps, bind at 1. cbn.
    apply String.eqb_neq in Hm. rewrite Hm.
    destruct (emits_bind on_source _ (fun t : Q * Q =>
                let '(v0, i) := t in ret ((mv ++ [v0])%list, (mi ++ [i])%list, ms))
                (emits_cv2 dev float_of)
                ltac:(intros [x y]; apply emits_pure; intro; reflexivity)
                (mkWorld (ps w) (trace w ++ [EParam Source "volt" (PNum v)])%list))
      as [n [E V]].
    exists (EParam Source "volt" (PNum v) :: n). cbn in E. rewrite E, <- app_assoc.
    split; [reflexivity | exact V].
  - exists [EParam Source "volt" (PNum v)]. auto.
Qed.

Lemma sweep_2w dev float_of vs : forall acc w,
  mode (ps w) <> "4wire" ->
  exists new, trace (snd (sweep dev float_of vs acc w)) = (trace w ++ new)%list
              /\ forallb on_source new = true.
Proof.
  induction vs as [|v vs IH]; intros acc w Hm; cbn.
  - exists []. rewrite app_nil_r. auto.
  - unfold bind at 1.
    destruct (sweep_body_2w dev float_of v acc w Hm) as [P [n1 [E1 V1]]].
    destruct (sweep_body dev float_of v acc w) as [[acc'|e] w1] eqn:Eb; cbn in *.
    + rewrite <- P in Hm. destruct (IH acc' w1 Hm) as [n2 [E2 V2]].
      exists (n1 ++ n2)%list. rewrite E2, E1, app_assoc, forallb_app, V1, V2. auto.
    + eauto.
Qed.

(** A sweep that succeeds writes to the source-meter's voltage parameter
    exactly the given setpoints, once each and in order. *)
Theorem measure_cvc_setpoints :
  forall dev float_of vs w r w',
  run (measure_cvc dev float_of vs) w = (Ok r, w') ->
  exists new, trace w' = (trace w ++ new)%list /\ volt_writes new = vs.
Proof.
  intros dev float_of vs w r w' H. unfold run, measure_cvc in H.
  apply bind_ok in H as [[[mv mi] ms] [w1 [Hs H]]].
  apply sweep_ok_volt in Hs as [n [E V]].
  unfold get_ps, bind in H. cbn in H.
  destruct (String.eqb (mode (ps w1)) "4wire"); unfold ret in H; inversion H; subst;
    eauto.
Qed.

(** Outside 4-wire mode a sweep, whether it succeeds or raises, talks to
    the source-meter only: the voltmeter is never written or queried. *)
Theorem measure_cvc_2w_source_only :
  forall dev float_of vs w, mode (ps w) <> "4wire" ->
  exists new, trace (snd (run (measure_cvc dev float_of vs) w)) = (trace w ++ new)%list
              /\ forallb on_source new = true.
Proof.
  intros dev float_of vs w Hm. unfold run, measure_cvc, bind at 1.
  destruct (sweep_2w dev float_of vs ([], [], []) w Hm) as [n [E V]].
  destruct (sweep dev float_of vs ([], [], []) w) as [[[[mv mi] ms]|e] w1]; cbn in *.
  - unfold get_ps, bind. cbn. exists n.
    destruct (String.eqb (mode (ps w1)) "4wire"); cbn; auto.
  - eauto.
Qed.

Lemma space_upper c : py_is_space c = true -> ascii_upper c = c.
Proof.
  unfold py_is_space, ascii_upper. intro H.
  apply orb_true_iff in H.
  destruct ((97 <=? nat_of_ascii c) && (nat_of_ascii c <=? 122))%nat eqn:E; [|reflexivity].
  apply andb_true_iff in E as [E _]. apply Nat.leb_le in E.
  destruct H as [H|H]; apply andb_true_iff in H as [_ H]; apply Nat.leb_le in H; lia.
Qed.

Lemma lstrip_spaces pre s :
  forallb py_is_space (list_ascii_of_string pre) = true -> py_lstrip (pre ++ s) = py_lstrip s.
Proof.
  induction pre as [|c pre IH]; cbn; [reflexivity|].
  intro H. apply andb_true_iff in H as [H1 H2]. rewrite H1. auto.
Qed.

Lemma lstrip_rev_spaces suf : forall acc,
  forallb py_is_space (list_ascii_of_string suf) = true ->
  py_lstrip (rev_string suf acc) = py_lstrip acc.
Proof.
  induction suf as [|c suf IH]; intros acc H; cbn in *; [reflexivity|].
  apply andb_true_iff in H as [H1 H2]. rewrite IH by exact H2. cbn. rewrite H1. reflexivity.
Qed.

Lemma lstrip_app_head c r suf :
  py_is_space c = false -> py_lstrip (String c r ++ suf) = (String c r ++ suf).
Proof. intro H. cbn. rewrite H. reflexivity. Qed.

Lemma rev_string_app x : forall y acc, rev_string (x ++ y) acc = rev_string y (rev_string x acc).
Proof. induction x as [|c x IH]; intros; cbn; auto. Qed.

Lemma upper_nonspace c d : ascii_upper c = d -> py_is_space d = false -> py_is_space c = false.
Proof.
  intros E Hd. destruct (py_is_space c) eqn:Hc; [|reflexivity].
  rewrite (space_upper c Hc) in E. subst. rewrite Hc in Hd. discriminate Hd.
Qed.

(** [FilterModule.window]: [set(None)] sends the token [NONE], and [get()]
    turns a reply of [NONE], in any letter case and with any surrounding
    whitespace, back into [None] without converting it to a float. *)
Theorem window_none_round_trip :
  forall dev float_of w pre r suf,
  trace (snd (run (param_set dev Voltmeter filter_window PNone) w))
    = (trace w ++ [EWrite Voltmeter (Fmt "SENS:VOLT:DFIL:WINDOW {}" [AStr "NONE"])])%list /\
  (forallb py_is_space (list_ascii_of_string pre) = true ->
   forallb py_is_space (list_ascii_of_string suf) = true ->
   py_upper r = "NONE" ->
   dev (trace w) (EAsk Voltmeter "SENS:VOLT:DFIL:WINDOW?") = Some (pre ++ r ++ suf) ->
   fst (run (window_get dev float_of) w) = Ok None).
Proof.
  intros dev float_of w pre r suf. split.
  - unfold run, param_set. cbn. unfold emit, bind. cbn. destruct (dev _ _); reflexivity.
  - intros Hpre Hsuf Hr Hd.
    unfold run, window_get, ask, emit, bind. rewrite Hd. cbn.
    destruct r as [|a [|b [|c [|d [|e r]]]]]; cbn in Hr; try discriminate Hr.
    injection Hr as Ha Hb Hc Hd'.
    assert (Sa : py_is_space a = false) by (apply (upper_nonspace a "N"%char); [exact Ha | reflexivity]).
    assert (Sd : py_is_space d = false) by (apply (upper_nonspace d "E"%char); [exact Hd' | reflexivity]).
    unfold py_strip. rewrite lstrip_spaces by exact Hpre. rewrite (lstrip_app_head a) by exact Sa.
    rewrite rev_string_app, lstrip_rev_spaces by exact Hsuf. cbn. rewrite Sd. cbn.
    rewrite Ha, Hb, Hc, Hd'. reflexivity.
Qed.

Lemma window_none_round_trip_witness :
  fst (run (window_get (mock_dev "" " none ") decimal_float) empty_world) = Ok None.
Proof.
  apply (proj2 (window_none_round_trip (mock_dev "" " none ") decimal_float empty_world
                  " " "none" " ")); reflexivity.
Defined.

Ltac split_goal :=
  repeat first
    [ progress cbn
    | match goal with
      | |- context [match ?x with Some _ => _ | None => _ end] => destruct x
      | |- context [match ?x with [] => _ | _ :: _ => _ end] => destruct x
      end ].

Lemma cv4_no_attr dev float_of w :
  has_voltmeter (ps w) = true -> fst (measure_cv_4_wire dev float_of w) <> Raise AttributeError.
Proof.
  intro Hv.
  unfold measure_cv_4_wire, write, ask, py_index, py_float, emit, get_ps, sleep, bind, ret, raise.
  cbn. destruct (dev _ _); cbn; [rewrite Hv; cbn|]; split_goal; discriminate.
Qed.

Lemma cv2_no_attr dev float_of w : fst (measure_cv_2_wire dev float_of w) <> Raise AttributeError.
Proof.
  unfold measure_cv_2_wire, write, ask, py_index, py_float, emit, bind, ret, raise.
  split_goal; discriminate.
Qed.

Lemma sweep_body_no_attr dev float_of v acc : no_attr_err (sweep_body dev float_of v acc).
Proof.
  intros w Hinv. unfold sweep_body. destruct acc as [[mv mi] ms].
  unfold bind at 1, param at 1, bind at 1, emit at 1, ret at 1. cbn.
  destruct (dev (trace w) (EParam Source "volt" (PNum v))); cbn; [|discriminate].
  unfold get_ps, bind at 1. cbn.
  set (w1 := mkWorld (ps w) (trace w ++ [EParam Source "volt" (PNum v)])%list).
  destruct (String.eqb (mode (ps w)) "4wire") eqn:E.
  - apply String.eqb_eq in E.
    pose proof (cv4_no_attr dev float_of w1 (Hinv E)) as H.
    unfold bind. destruct (measure_cv_4_wire dev float_of w1) as [[[[a b] c]|e] w2]; cbn in *;
      first [discriminate | intro X; injection X as ->; exact (H eq_refl)].
  - pose proof (cv2_no_attr dev float_of w1) as H.
    unfold bind. destruct (measure_cv_2_wire dev float_of w1) as [[[a b]|e] w2]; cbn in *;
      first [discriminate | intro X; injection X as ->; exact (H eq_refl)].
Qed.

Lemma sweep_no_attr dev float_of vs : forall acc, no_attr_err (sweep dev float_of vs acc).
Proof.
  induction vs as [|v vs IH]; intros acc w Hinv; cbn; [discriminate|].
  unfold bind at 1.
  pose proof (sweep_body_no_attr dev float_of v acc w Hinv) as H.
  pose proof (keeps_sweep_body dev float_of v acc w) as P.
  destruct (sweep_body dev float_of v acc w) as [[acc'|e] w1]; cbn in *.
  - apply IH. rewrite P. exact Hinv.
  - exact H.
Qed.

(** On every station built by the constructor and driven through its
    public methods, [measure_cvc] never raises [AttributeError]: the
    voltmeter it uses in 4-wire mode is always there. *)
Theorem measure_cvc_no_attribute_error :
  forall dev float_of vs w, reachable dev float_of w ->
  fst (run (measure_cvc dev float_of vs) w) <> Raise AttributeError.
Proof.
  intros dev float_of vs w R.
  destruct (reachable_station dev float_of w R) as [[_ Hinv] _].
  unfold run, measure_cvc, bind at 1.
  pose proof (sweep_no_attr dev float_of vs ([], [], []) w Hinv) as H.
  destruct (sweep dev float_of vs ([], [], []) w) as [[[[mv mi] ms]|e] w1]; cbn in *.
  - unfold get_ps, bind. cbn. destruct (String.eqb (mode (ps w1)) "4wire"); discriminate.
  - intro X; injection X as ->; exact (H eq_refl).
Qed.

Lemma measure_cvc_no_attribute_error_witness :
  fst (run (measure_cvc (mock_dev "0.03,0.0001" "0.0299") decimal_float [1 # 100])
         (mkWorld (mkStation true "4wire" (1 # 100))
            (trace (snd (run (create (mock_dev "0.03,0.0001" "0.0299") true) empty_world)))))
    <> Raise AttributeError.
Proof.
  apply (measure_cvc_no_attribute_error (mock_dev "0.03,0.0001" "0.0299") decimal_float).
  apply (reach_create _ _ true empty_world). vm_compute. reflexivity.
Defined.

Lemma measure_cvc_setpoints_witness :
  exists new,
    trace (snd (run (measure_cvc (mock_dev "0.03,0.0001" "") decimal_float [1 # 10; 2 # 10])
                  empty_world)) = (trace empty_world ++ new)%list /\
    volt_writes new = [1 # 10; 2 # 10].
Proof.
  eapply (measure_cvc_setpoints (mock_dev "0.03,0.0001" "") decimal_float [1 # 10; 2 # 10]
            empty_world).
  reflexivity.
Defined.

Lemma measure_cvc_2w_source_only_witness :
  exists new,
    trace (snd (run (measure_cvc (mock_dev "0.03,0.0001" "") decimal_float [1 # 10; 2 # 10])
                  empty_world)) = (trace empty_world ++ new)%list /\
    forallb on_source new = true.
Proof.
  apply (measure_cvc_2w_source_only (mock_dev "0.03,0.0001" "") decimal_float [1 # 10; 2 # 10]
           empty_world).
  cbn. intro H. discriminate H.
Defined.





